(** * Formatted text: the canonical form and its normalizer

    A shallow embedding of [prompt_toolkit/formatted_text/base.py]:
    [to_formatted_text], [is_formatted_text], [Template.format] and
    [merge_formatted_text], over an explicit universe of Python values and a
    store of list objects, so that "the same reference" and "a new list" are
    different results. *)

From Stdlib Require Import ZArith Ascii DecimalString.
From stdpp Require Import base option list list_monad strings gmap.

Local Open Scope string_scope.

(** ** Python values *)

(** Addresses of list objects. *)
Definition loc := nat.

(** The values the module can be handed.  Lists are mutable objects and are
    held by reference; everything else is immutable and held by value.
    An object with [__pt_formatted_text__] and a zero-argument callable are
    represented by what the call returns; this excludes (by well-foundedness)
    the producers that return themselves for ever, on which the source does
    not terminate.  Such an object is no list, is not iterable and is not
    callable; a callable has no [__pt_formatted_text__]. *)
#[warnings="-register-all"]
Inductive value : Type :=
| VNone
| VStr (s : string)
| VInt (n : Z)
| VTuple (fields : list value)
| VList (l : loc)
| VMagic (ret : value)       (* has __pt_formatted_text__, which returns ret *)
| VCallable (ret : value)    (* callable with no argument, returns ret *)
| VHandler (h : nat)         (* a mouse handler: callable, one required argument *)
| VObject (o : nat).         (* any other object: no capability, not callable *)

(** A list object: a plain [list] or an instance of the subclass
    [FormattedText], with its elements. *)
Record list_object := ListObject {
  is_FormattedText : bool;
  elems : list value
}.

Abbreviation store := (gmap loc list_object).

(** ** Exceptions and outcomes *)

(** [AssertionError] and [ValueError] carry the value that the message
    interpolates with [%r], when there is one.  [StoreFault] is not a Python
    exception: it marks a reference to no object of the store. *)
Inductive exn : Type :=
| AssertionError (got : option value)
| ValueError (got : option value)
| TypeError
| IndexError
| StoreFault.

Inductive outcome (A : Type) : Type :=
| Ok (a : A)
| Raise (e : exn).
Arguments Ok {A} a.
Arguments Raise {A} e.

Global Instance outcome_ret : MRet outcome := @Ok.
Global Instance outcome_bind : MBind outcome := λ A B f m,
  match m with
  | Ok a => f a
  | Raise e => Raise e
  end.

(** ** Builtins used by the module *)

Definition deref (h : store) (l : loc) : outcome list_object :=
  match h !! l with
  | Some ob => Ok ob
  | None => Raise StoreFault
  end.

Definition isinstance_str (v : value) : bool :=
  match v with VStr _ => true | _ => false end.

Definition isinstance_list (v : value) : bool :=
  match v with VList _ => true | _ => false end.

Definition callable (v : value) : bool :=
  match v with VCallable _ | VHandler _ => true | _ => false end.

(** [hasattr(v, '__pt_formatted_text__')]; [FormattedText] defines the
    method too. *)
Definition has_pt_formatted_text (h : store) (v : value) : bool :=
  match v with
  | VMagic _ => true
  | VList l =>
      match h !! l with
      | Some ob => is_FormattedText ob
      | None => false
      end
  | _ => false
  end.

(** [is_formatted_text]: the shallow check of the shape of a value. *)
Definition is_formatted_text (h : store) (value : value) : bool :=
  if callable value then true
  else if isinstance_str value || isinstance_list value then true
  else if has_pt_formatted_text h value then true
  else false.

(** [needle in hay] *)
Fixpoint contains (needle hay : string) : bool :=
  String.prefix needle hay ||
  match hay with
  | EmptyString => false
  | String _ hay' => contains needle hay'
  end.

(** The two characters of a placeholder marker. *)
Definition is_marker (c c' : ascii) : bool :=
  Ascii.eqb c "{" && Ascii.eqb c' "}".

(** [s.split('{}')]: the pieces between the markers, scanning from the left. *)
Fixpoint split_markers (s : string) : list string :=
  match s with
  | EmptyString => [EmptyString]
  | String c rest =>
      let keep :=
        match split_markers rest with
        | part :: parts => String c part :: parts
        | [] => [String c EmptyString]
        end in
      match rest with
      | String c' rest' =>
          if is_marker c c' then EmptyString :: split_markers rest' else keep
      | EmptyString => keep
      end
  end.

(** The characters of a string, as the one-character strings Python yields. *)
Fixpoint chars (s : string) : list value :=
  match s with
  | EmptyString => []
  | String c s' => VStr (String c EmptyString) :: chars s'
  end.

(** [iter(v)], run to the end. *)
Definition py_iter (h : store) (v : value) : outcome (list value) :=
  match v with
  | VStr s => Ok (chars s)
  | VTuple fields => Ok fields
  | VList l => ob ← deref h l; Ok (elems ob)
  | _ => Raise TypeError
  end.

(** [v[i]] for an index [i >= 0]. *)
Definition subscript (h : store) (v : value) (i : nat) : outcome value :=
  match v with
  | VStr _ | VTuple _ | VList _ =>
      items ← py_iter h v;
      match items !! i with
      | Some x => Ok x
      | None => Raise IndexError
      end
  | _ => Raise TypeError
  end.

(** [prefix + k] where [prefix] is a string. *)
Definition str_add (prefix : string) (k : value) : outcome value :=
  match k with
  | VStr s => Ok (VStr (prefix +:+ s))
  | _ => Raise TypeError
  end.

(** [bool(style)]. *)
Definition truthy (s : string) : bool :=
  match s with EmptyString => false | _ => true end.

Definition decimal (n : Z) : string := NilZero.string_of_int (Z.to_int n).

(** [fmt % v] for a format string with one [%r]: a tuple on the right is the
    argument list, anything else is the single argument. *)
Definition percent_r (v : value) : outcome value :=
  match v with
  | VTuple [x] => Ok x
  | VTuple _ => Raise TypeError
  | _ => Ok v
  end.

(** ** The normalizer *)

(** A run [(style, text)]. *)
Definition run (style text : string) : value := VTuple [VStr style; VStr text].

(** What the local [result] of [to_formatted_text] is bound to: an object
    that existed before the call (the argument itself, or what its
    [__pt_formatted_text__] returned), or a list the call has just built. *)
Inductive result_obj : Type :=
| Existing (v : value)
| NewList (items : list value).

(** What [to_formatted_text] returns, always a [FormattedText]: the object
    of the store at [l] itself (with the runs it holds), or a new object. *)
Inductive formatted_text : Type :=
| Shared (l : loc) (runs : list value)
| Fresh (runs : list value).

Definition runs_of (ft : formatted_text) : list value :=
  match ft with
  | Shared _ runs => runs
  | Fresh runs => runs
  end.

Definition iterate (h : store) (result : result_obj) : outcome (list value) :=
  match result with
  | Existing v => py_iter h v
  | NewList items => Ok items
  end.

(** The two assertions on the first element of a non-empty list. *)
Definition check_first (h : store) (value : value) : outcome unit :=
  items ← py_iter h value;
  if bool_decide (length items = 0) then Ok tt
  else
    first ← subscript h value 0;
    style0 ← subscript h first 0;
    if negb (isinstance_str style0) then Raise (AssertionError (Some style0))
    else
      first ← subscript h value 0;
      text0 ← subscript h first 1;
      if negb (isinstance_str text0) then Raise (AssertionError (Some text0))
      else Ok tt.

(** [k, v = item]. *)
Definition unpack2 (h : store) (item : value) : outcome (value * value) :=
  fields ← py_iter h item;
  match fields with
  | [k; v] => Ok (k, v)
  | _ => Raise (ValueError None)
  end.

(** [[(style + ' ' + k, v) for k, v in result]] *)
Fixpoint prefix_pairs (h : store) (style : string) (items : list value)
  : outcome (list value) :=
  match items with
  | [] => Ok []
  | item :: rest =>
      kv ← unpack2 h item;
      k' ← str_add (style +:+ " ") kv.1;
      rest' ← prefix_pairs h style rest;
      Ok (VTuple [k'; kv.2] :: rest')
  end.

(** [(style + ' ' + item[0], ) + item[1:]]: a slice of a string or of a list
    is no tuple, and does not add to one. *)
Definition prefix_item (h : store) (style : string) (item : value)
  : outcome value :=
  item0 ← subscript h item 0;
  k' ← str_add (style +:+ " ") item0;
  match item with
  | VTuple fields => Ok (VTuple (k' :: tail fields))
  | _ => Raise TypeError
  end.

(** [[(style + ' ' + item[0], ) + item[1:] for item in result]] *)
Fixpoint prefix_items (h : store) (style : string) (items : list value)
  : outcome (list value) :=
  match items with
  | [] => Ok []
  | item :: rest =>
      item' ← prefix_item h style item;
      rest' ← prefix_items h style rest;
      Ok (item' :: rest')
  end.

(** "Apply extra style": the fast comprehension, and the slow one when the
    fast one raised [ValueError]. *)
Definition apply_style (h : store) (style : string) (result : result_obj)
  : outcome result_obj :=
  if truthy style then
    items ← iterate h result;
    match prefix_pairs h style items with
    | Ok items' => Ok (NewList items')
    | Raise (ValueError _) =>
        items' ← prefix_items h style items;
        Ok (NewList items')
    | Raise e => Raise e
    end
  else Ok result.

(** The final wrapping: a [FormattedText] is returned as it is, anything
    else goes through the constructor [FormattedText(result)], which builds a
    list from what it iterates. *)
Definition wrap (h : store) (result : result_obj) : outcome formatted_text :=
  match result with
  | Existing (VList l) =>
      ob ← deref h l;
      if is_FormattedText ob then Ok (Shared l (elems ob))
      else Ok (Fresh (elems ob))
  | _ => items ← iterate h result; Ok (Fresh items)
  end.

(** The end of [to_formatted_text], after the chain of branches has bound
    [result]: apply the extra style, wrap. *)
Definition finish (h : store) (style : string) (result : outcome result_obj)
  : outcome formatted_text :=
  result ← result;
  result ← apply_style h style result;
  wrap h result.
Arguments finish : simpl never.

Section Normalizer.

(** [str(v)] of tuples and of objects is the interpreter's business
    (it prints addresses); the module only passes it on. *)
Variable object_str : value → string.

(** ['{}'.format(v)] *)
Definition py_format (v : value) : string :=
  match v with
  | VInt n => decimal n
  | VStr s => s
  | VNone => "None"
  | _ => object_str v
  end.

Fixpoint to_formatted_text (h : store) (value : value) (style : string)
    (auto_convert : bool) : outcome formatted_text :=
  let finish := finish h style in
  match value with
  | VNone => finish (Ok (NewList []))
  | VStr _ => finish (Ok (NewList [VTuple [VStr ""; value]]))
  | VList _ => finish (check_first h value;; Ok (Existing value))
  | VMagic ret => finish (Ok (Existing ret))
  | VCallable ret => to_formatted_text h ret style false
  | VHandler _ => Raise TypeError
  | VInt _ | VTuple _ | VObject _ =>
      if auto_convert then
        finish (Ok (NewList [VTuple [VStr ""; VStr (py_format value)]]))
      else
        got ← percent_r value;
        Raise (ValueError (Some got))
  end.


(** ** Template *)

Record Template := { text : string }.

(** [Template(text)] *)
Definition Template_init (text : string) : outcome Template :=
  if contains "{0}" text then Raise (AssertionError None)
  else Ok {| text := text |}.

(** The loop of [get_result]; [result] is the list being built. *)
Fixpoint interleave (h : store) (pairs : list (string * value))
    (result : list value) : outcome (list value) :=
  match pairs with
  | [] => Ok result
  | (part, val) :: pairs' =>
      let result := (result ++ [run "" part])%list in
      ft ← to_formatted_text h val "" false;
      interleave h pairs' (result ++ runs_of ft)%list
  end.

Definition get_result (self : Template) (values : list value) (h : store)
  : outcome formatted_text :=
  let parts := split_markers (text self) in
  if negb (bool_decide
             ((Z.of_nat (length parts) - 1)%Z = Z.of_nat (length values)))
  then Raise (AssertionError None)
  else
    result ← interleave h (zip parts values) [];
    match last parts with
    | Some part => Ok (Fresh (result ++ [run "" part])%list)
    | None => Raise IndexError
    end.

(** ** Merge *)

(** The loop of [_merge_formatted_text]. *)
Fixpoint merge_loop (h : store) (items : list value) (result : list value)
  : outcome (list value) :=
  match items with
  | [] => Ok result
  | i :: items' =>
      ft ← to_formatted_text h i "" false;
      merge_loop h items' (result ++ runs_of ft)%list
  end.

Definition _merge_formatted_text (items : value) (h : store)
  : outcome formatted_text :=
  its ← py_iter h items;
  result ← merge_loop h its [];
  Ok (Fresh result).

(** ** Producers *)

(** The two closures the module returns, with what they capture.  Calling
    [format] or [merge_formatted_text] only builds the closure; the body
    runs when the closure is invoked, in the store of that moment. *)
Inductive producer : Type :=
| GetResult (self : Template) (values : list value)
| MergeFormattedText (items : value).

Definition format (self : Template) (values : list value) : outcome producer :=
  Ok (GetResult self values).


Definition invoke (p : producer) (h : store) : outcome formatted_text :=
  match p with
  | GetResult self values => get_result self values h
  | MergeFormattedText items => _merge_formatted_text items h
  end.

End Normalizer.

(** ** Notions the statements use *)

(** The number of placeholder markers of a literal: the occurrences of the
    two characters of the marker, counted from the left. *)
Fixpoint count_markers (s : string) : nat :=
  match s with
  | EmptyString => 0
  | String c rest =>
      match rest with
      | String c' rest' =>
          if is_marker c c' then S (count_markers rest') else count_markers rest
      | EmptyString => 0
      end
  end.

(** A run of two or of three fields: style and text are strings, the third
    field (a handler) is any value. *)
Definition is_run (v : value) : bool :=
  match v with
  | VTuple [VStr _; VStr _] | VTuple [VStr _; VStr _; _] => true
  | _ => false
  end.

(** The run [v] with [style] and a space put before its style field. *)
Definition prefixed (style : string) (v : value) : value :=
  match v with
  | VTuple (VStr k :: fields) => VTuple (VStr ((style +:+ " ") +:+ k) :: fields)
  | _ => v
  end.

(** The first element of a sequence of runs passes the two assertions. *)
Definition well_formed_head (items : list value) : bool :=
  match items with
  | [] => true
  | VTuple (VStr _ :: VStr _ :: _) :: _ => true
  | _ => false
  end.

(** [v] leads to the list object at [l]: it is that reference, an object
    whose [__pt_formatted_text__] returns it, or a producer of such a value. *)
Fixpoint resolves_to (v : value) (l : loc) : bool :=
  match v with
  | VList l' => bool_decide (l' = l)
  | VMagic (VList l') => bool_decide (l' = l)
  | VCallable ret => resolves_to ret l
  | _ => false
  end.

(** One of the shapes the normalizer accepts without auto-conversion. *)
Definition accepted_shape (v : value) : bool :=
  match v with
  | VNone | VStr _ | VList _ | VMagic _ | VCallable _ | VHandler _ => true
  | VInt _ | VTuple _ | VObject _ => false
  end.

(** The printing function of the examples. *)
Definition sample_str (v : value) : string := "<object>".

(** ['{}'.join(parts)] *)
Fixpoint join_markers (parts : list string) : string :=
  match parts with
  | [] => EmptyString
  | part :: parts' =>
      match parts' with
      | [] => part
      | _ :: _ => part +:+ "{}" +:+ join_markers parts'
      end
  end.

(** The runs a template is made of: each literal part but the last followed
    by the runs of its argument, then the last part. *)
Definition interleaved (parts : list string) (fts : list formatted_text)
  : list value :=
  (concat (zip_with (λ part ft, run "" part :: runs_of ft) parts fts)
   ++ match last parts with
      | Some part => [run "" part]
      | None => []
      end)%list.

(** The values that can be subscripted and iterated. *)
Definition subscriptable (v : value) : bool :=
  match v with
  | VStr _ | VTuple _ | VList _ => true
  | _ => false
  end.

(** What the extra style puts before a style field. *)
Definition style_prefix (style : string) : string :=
  if truthy style then style +:+ " " else EmptyString.

(** The plain list [[('a', 'x'), 42]]. *)
Definition bad_second : list_object :=
  ListObject false [run "a" "x"; VInt 42].

(** The stores of the examples hold one of these list objects. *)

(** A plain list of two runs, the second with a handler. *)
Definition two_runs : list_object :=
  ListObject false [run "a" "x"; VTuple [VStr "b"; VStr "y"; VHandler 7]].

(** A [FormattedText] of one run. *)
Definition canonical_x : list_object := ListObject true [run "" "x"].

(** A [FormattedText] whose first element has a number for style. *)
Definition canonical_bad : list_object :=
  ListObject true [VTuple [VInt 1; VStr "x"]].

(** The plain list [[(1, 'x'), 42]]. *)
Definition bad_style : list_object :=
  ListObject false [VTuple [VInt 1; VStr "x"]; VInt 42].

(** The plain lists [[('x',)]] and [[(1,)]]. *)
Definition one_string : list_object := ListObject false [VTuple [VStr "x"]].
Definition one_number : list_object := ListObject false [VTuple [VInt 1]].

(** * Properties *)

Section Properties.

Context (object_str : value → string).

Local Abbreviation to_formatted_text := (to_formatted_text object_str).
Local Abbreviation invoke := (invoke object_str).

Implicit Types (h : store) (v : value) (l : loc) (ob : list_object).

Lemma bind_Ok {A B} (f : A → outcome B) (a : A) : (Ok a ≫= f) = f a.
Proof. reflexivity. Qed.

Lemma bind_Raise {A B} (f : A → outcome B) (e : exn) :
  (Raise e ≫= f) = Raise e.
Proof. reflexivity. Qed.

Lemma py_iter_list h l ob :
  h !! l = Some ob → py_iter h (VList l) = Ok (elems ob).
Proof. intros Hl. unfold py_iter, deref. rewrite Hl. reflexivity. Qed.

Lemma subscript_list h l ob i :
  h !! l = Some ob →
  subscript h (VList l) i =
    match elems ob !! i with Some x => Ok x | None => Raise IndexError end.
Proof. intros Hl. unfold subscript. rewrite (py_iter_list h l ob Hl). reflexivity. Qed.

(** The branch of lists, as one equation. *)
Lemma to_formatted_text_list h l s a :
  to_formatted_text h (VList l) s a =
    (check_first h (VList l);;
     result ← apply_style h s (Existing (VList l));
     wrap h result).
Proof.
  simpl. unfold finish. destruct (check_first h (VList l)); reflexivity.
Qed.

Lemma wrap_list h l ob :
  h !! l = Some ob →
  wrap h (Existing (VList l)) =
    Ok (if is_FormattedText ob then Shared l (elems ob) else Fresh (elems ob)).
Proof.
  intros Hl. unfold wrap, deref. rewrite Hl. simpl.
  by destruct (is_FormattedText ob).
Qed.

(** The accepted shapes are [None] and what [is_formatted_text] accepts. *)
Lemma accepted_shape_is_formatted_text (h : store) (v : value) :
  accepted_shape v =
    match v with
    | VNone => true
    | _ => is_formatted_text h v
    end.
Proof. destruct v; reflexivity. Qed.

(** *** Producers *)

(** The flag has no effect on a value of an accepted shape. *)
Lemma auto_convert_irrelevant h v s a a' :
  accepted_shape v = true →
  to_formatted_text h v s a = to_formatted_text h v s a'.
Proof. destruct v; simpl; intros Hv; try discriminate; reflexivity. Qed.

(** C1 (as amended): a producer [p] returning [v] normalizes as [v] does
    with the same style and with auto-conversion off, whatever the flag of
    the outer call, and so does a producer of a producer ... of [v]: the
    style reaches the innermost call and is applied there only.  The result
    is that of [to_formatted_text(v, s, a)] when [a] is false or [v] is of
    an accepted shape. *)
Theorem producer_resolution h v s a :
  to_formatted_text h (VCallable v) s a = to_formatted_text h v s false
  ∧ (∀ n, to_formatted_text h (Nat.iter (S n) VCallable v) s a
          = to_formatted_text h v s false)
  ∧ (a = false ∨ accepted_shape v = true →
     to_formatted_text h (VCallable v) s a = to_formatted_text h v s a).
Proof.
  split; [reflexivity|]. split.
  - intros n. induction n as [|n IH]; [reflexivity|].
    simpl in *. exact IH.
  - intros [->|Hv]; [reflexivity|].
    simpl. by apply auto_convert_irrelevant.
Qed.

(** *** Self-describing objects *)

(** C2: what [__pt_formatted_text__] returns is not normalized.  For an
    object [o] returning the string [ab], [to_formatted_text(o)] is the list
    of the characters of the string, where [to_formatted_text('ab')] is the
    single run [('', 'ab')]; with a style the call raises [TypeError], and it
    does so with or without a style when [o] returns another self-describing
    object. *)
Theorem magic_result_not_normalized h a v :
  to_formatted_text h (VMagic (VStr "ab")) "" a = Ok (Fresh [VStr "a"; VStr "b"])
  ∧ to_formatted_text h (VStr "ab") "" a = Ok (Fresh [run "" "ab"])
  ∧ to_formatted_text h (VMagic (VStr "ab")) "bold" a = Raise TypeError
  ∧ to_formatted_text h (VStr "ab") "bold" a = Ok (Fresh [run "bold " "ab"])
  ∧ to_formatted_text h (VMagic (VMagic v)) "" a = Raise TypeError
  ∧ to_formatted_text h (VMagic (VMagic v)) "bold" a = Raise TypeError.
Proof. repeat split; reflexivity. Qed.

(** *** Style prefixing *)

Lemma is_run_inv v :
  is_run v = true →
  ∃ k t trailing, v = VTuple (VStr k :: VStr t :: trailing) ∧ (length trailing ≤ 1)%nat.
Proof.
  destruct v as [| | |fields| | | | |]; try discriminate.
  destruct fields as [|[]]; try discriminate.
  destruct fields as [|[] fields]; try discriminate.
  destruct fields as [|x fields]; simpl.
  - intros _. eexists _, _, []. split; [reflexivity|]. simpl. lia.
  - destruct fields; [|discriminate].
    intros _. eexists _, _, [x]. split; [reflexivity|]. simpl. lia.
Qed.

Lemma prefix_item_run h style v :
  is_run v = true → prefix_item h style v = Ok (prefixed style v).
Proof.
  intros (k & t & trailing & -> & _)%is_run_inv. reflexivity.
Qed.

(** The slow comprehension rebuilds every run, of either arity. *)
Lemma prefix_items_runs h style items :
  Forall (λ v, is_run v = true) items →
  prefix_items h style items = Ok (prefixed style <$> items).
Proof.
  induction 1 as [|v items Hv _ IH]; [reflexivity|].
  simpl. rewrite (prefix_item_run h style v Hv), bind_Ok, IH. reflexivity.
Qed.

(** The fast comprehension rebuilds the runs, or stops at the first run of
    three fields with the [ValueError] of the unpacking. *)
Lemma prefix_pairs_runs h style items :
  Forall (λ v, is_run v = true) items →
  prefix_pairs h style items = Ok (prefixed style <$> items)
  ∨ prefix_pairs h style items = Raise (ValueError None).
Proof.
  induction 1 as [|v items Hv _ IH]; [by left|].
  apply is_run_inv in Hv as (k & t & trailing & -> & Hlen).
  destruct trailing as [|x trailing].
  - simpl. destruct IH as [-> | ->]; [left|right]; reflexivity.
  - right. destruct trailing; [reflexivity|]. simpl in Hlen. lia.
Qed.

Lemma check_first_well_formed h l ob :
  h !! l = Some ob →
  well_formed_head (elems ob) = true →
  check_first h (VList l) = Ok tt.
Proof.
  intros Hl Hwf. unfold check_first.
  rewrite (py_iter_list h l ob Hl), bind_Ok.
  destruct (elems ob) as [|first rest] eqn:Hitems; [reflexivity|].
  rewrite bool_decide_eq_false_2 by (simpl; lia).
  rewrite (subscript_list h l ob 0 Hl), Hitems. simpl.
  destruct first as [| | |fields| | | | |]; try discriminate.
  destruct fields as [|[] fields]; try discriminate.
  destruct fields as [|[] fields]; try discriminate.
  reflexivity.
Qed.

Lemma is_run_well_formed_head items :
  Forall (λ v, is_run v = true) items → well_formed_head items = true.
Proof.
  destruct 1 as [|v items Hv _]; [reflexivity|].
  apply is_run_inv in Hv as (k & t & trailing & -> & _). reflexivity.
Qed.

Lemma truthy_nonempty s : s ≠ "" → truthy s = true.
Proof. destruct s; [congruence|reflexivity]. Qed.

(** C4: with a non-empty style [s], every run of a list of runs of two or
    three fields comes back with the style field [s + ' ' + style] and its
    other fields as they were, in a new list; the arities may be mixed. *)
Theorem style_prefix_runs h l ob s a :
  h !! l = Some ob →
  Forall (λ v, is_run v = true) (elems ob) →
  s ≠ "" →
  to_formatted_text h (VList l) s a = Ok (Fresh (prefixed s <$> elems ob)).
Proof.
  intros Hl Hruns Hs. rewrite to_formatted_text_list.
  rewrite (check_first_well_formed h l ob Hl)
    by (by apply is_run_well_formed_head).
  rewrite bind_Ok. unfold apply_style, iterate.
  rewrite (truthy_nonempty s Hs), (py_iter_list h l ob Hl), bind_Ok.
  destruct (prefix_pairs_runs h s (elems ob) Hruns) as [-> | ->].
  - reflexivity.
  - rewrite (prefix_items_runs h s (elems ob) Hruns). reflexivity.
Qed.

(** *** The check of the first element *)

(** What the two assertions do with a first element that is a tuple. *)
Lemma check_first_tuple h l ob fields rest :
  h !! l = Some ob →
  elems ob = VTuple fields :: rest →
  check_first h (VList l) =
    match fields with
    | [] => Raise IndexError
    | k :: more =>
        if isinstance_str k then
          match more with
          | [] => Raise IndexError
          | t :: _ =>
              if isinstance_str t then Ok tt
              else Raise (AssertionError (Some t))
          end
        else Raise (AssertionError (Some k))
    end.
Proof.
  intros Hl Hitems. unfold check_first.
  rewrite (py_iter_list h l ob Hl), bind_Ok, Hitems.
  rewrite bool_decide_eq_false_2 by (simpl; lia).
  rewrite (subscript_list h l ob 0 Hl), Hitems. simpl.
  destruct fields as [|k more]; [reflexivity|]. simpl.
  destruct (isinstance_str k); [|reflexivity]. simpl.
  destruct more as [|t more]; [reflexivity|]. simpl.
  destruct (isinstance_str t); reflexivity.
Qed.

Lemma to_formatted_text_check_raises h l s a e :
  check_first h (VList l) = Raise e →
  to_formatted_text h (VList l) s a = Raise e.
Proof. intros He. rewrite to_formatted_text_list, He. reflexivity. Qed.

Lemma to_formatted_text_list_no_style h l ob a :
  h !! l = Some ob →
  check_first h (VList l) = Ok tt →
  to_formatted_text h (VList l) "" a =
    Ok (if is_FormattedText ob then Shared l (elems ob) else Fresh (elems ob)).
Proof.
  intros Hl Hc. rewrite to_formatted_text_list, Hc, bind_Ok.
  unfold apply_style. simpl truthy. cbv iota. rewrite bind_Ok.
  by apply wrap_list.
Qed.

(** C5 (as amended): a non-empty list whose first element has a style field
    or a text field that is no string makes [to_formatted_text] raise the
    [AssertionError] that reports this field, whatever the style and the
    flag; when both fields are strings the check passes whatever the elements
    after the first are and, when no extra style is given, the list is
    accepted with all its elements. *)
Theorem first_element_checked h l ob k t more rest s a :
  h !! l = Some ob →
  elems ob = VTuple (k :: t :: more) :: rest →
  (isinstance_str k = false →
   to_formatted_text h (VList l) s a = Raise (AssertionError (Some k)))
  ∧ (isinstance_str k = true → isinstance_str t = false →
     to_formatted_text h (VList l) s a = Raise (AssertionError (Some t)))
  ∧ (isinstance_str k = true → isinstance_str t = true →
     check_first h (VList l) = Ok tt
     ∧ ∃ ft, to_formatted_text h (VList l) "" a = Ok ft
             ∧ runs_of ft = VTuple (k :: t :: more) :: rest).
Proof.
  intros Hl Hitems.
  pose proof (check_first_tuple h l ob _ _ Hl Hitems) as Hc.
  cbv iota in Hc. split; [|split].
  - intros Hk. rewrite Hk in Hc. by apply to_formatted_text_check_raises.
  - intros Hk Ht. rewrite Hk, Ht in Hc. by apply to_formatted_text_check_raises.
  - intros Hk Ht. rewrite Hk, Ht in Hc. split; [exact Hc|].
    rewrite (to_formatted_text_list_no_style h l ob a Hl Hc).
    eexists. split; [reflexivity|].
    rewrite <- Hitems. by destruct (is_FormattedText ob).
Qed.

(** C10 (as amended): a non-empty list whose first element is the empty
    tuple, or a tuple of one field that is a string, makes
    [to_formatted_text] raise [IndexError]; when the one field is no string
    the first assertion fails before the second subscript is reached, and
    the error is the [AssertionError] reporting the field. *)
Theorem short_first_element h l ob fields rest s a :
  h !! l = Some ob →
  elems ob = VTuple fields :: rest →
  (length fields < 2)%nat →
  to_formatted_text h (VList l) s a =
    match fields with
    | [] => Raise IndexError
    | x :: _ =>
        if isinstance_str x then Raise IndexError
        else Raise (AssertionError (Some x))
    end.
Proof.
  intros Hl Hitems Hlen.
  pose proof (check_first_tuple h l ob _ _ Hl Hitems) as Hc.
  destruct fields as [|x [|y fields]]; simpl in Hlen; try lia.
  - by apply to_formatted_text_check_raises.
  - destruct (isinstance_str x); by apply to_formatted_text_check_raises.
Qed.

(** *** Unsupported input *)

(** C6: [42] is refused with the [ValueError] that reports it and, with
    auto-conversion, becomes the run [('', '42')]; a tuple of two fields,
    which is of no accepted shape either, is refused with the [TypeError] of
    the formatting of the message, and for the tuple [(42,)] the
    [ValueError] reports [42], not the tuple. *)
Theorem unsupported_input h s :
  to_formatted_text h (VInt 42) s false = Raise (ValueError (Some (VInt 42)))
  ∧ to_formatted_text h (VInt 42) "" true = Ok (Fresh [run "" "42"])
  ∧ accepted_shape (VTuple [VInt 1; VInt 2]) = false
  ∧ to_formatted_text h (VTuple [VInt 1; VInt 2]) s false = Raise TypeError
  ∧ to_formatted_text h (VTuple [VInt 42]) s false
    = Raise (ValueError (Some (VInt 42))).
Proof. repeat split; reflexivity. Qed.

(** *** Identity of canonical values *)

Lemma truthy_false s : truthy s = false → s = "".
Proof. by destruct s. Qed.

(** The end of the function returns an object of the store only when no
    style is applied and [result] is bound to a [FormattedText]. *)
Lemma finish_shared h s r l runs :
  finish h s r = Ok (Shared l runs) →
  s = "" ∧ r = Ok (Existing (VList l))
  ∧ ∃ ob, h !! l = Some ob ∧ is_FormattedText ob = true ∧ runs = elems ob.
Proof.
  unfold finish. destruct r as [result|e]; [|discriminate].
  rewrite bind_Ok. unfold apply_style.
  destruct (truthy s) eqn:Hs.
  - destruct (iterate h result) as [items|]; [|discriminate].
    rewrite bind_Ok.
    destruct (prefix_pairs h s items) as [|[]]; try discriminate.
    destruct (prefix_items h s items); discriminate.
  - apply truthy_false in Hs as ->. rewrite bind_Ok.
    destruct result as [v|items]; [|discriminate].
    destruct v as [| | | |l'| | | |]; simpl;
      try discriminate;
      try (match goal with |- context [chars ?s] => discriminate end).
    unfold deref. destruct (h !! l') as [ob|] eqn:Hl; [|discriminate].
    simpl. destruct (is_FormattedText ob) eqn:Hft; [|discriminate].
    intros [= -> <-]. eauto 10.
Qed.

(** C7 (as amended): an instance of [FormattedText] whose first element, if
    any, starts with two strings is returned by [to_formatted_text] with the
    default style as the same object; so is the [FormattedText] that the
    [__pt_formatted_text__] of the argument returns; and whenever the result
    is an object of the store, the style is empty, that object is a
    [FormattedText], and the argument is a reference to it, an object whose
    [__pt_formatted_text__] returns it, or a producer (of a producer ...) of
    one of these. *)
Theorem canonical_identity h :
  (∀ l ob a,
     h !! l = Some ob → is_FormattedText ob = true →
     well_formed_head (elems ob) = true →
     to_formatted_text h (VList l) "" a = Ok (Shared l (elems ob)))
  ∧ (∀ l ob a,
       h !! l = Some ob → is_FormattedText ob = true →
       to_formatted_text h (VMagic (VList l)) "" a = Ok (Shared l (elems ob)))
  ∧ (∀ v s a l runs,
       to_formatted_text h v s a = Ok (Shared l runs) →
       s = "" ∧ resolves_to v l = true
       ∧ ∃ ob, h !! l = Some ob ∧ is_FormattedText ob = true ∧ runs = elems ob).
Proof.
  split; [|split].
  - intros l ob a Hl Hft Hwf.
    rewrite (to_formatted_text_list_no_style h l ob a Hl), Hft; [done|].
    by apply (check_first_well_formed h l ob).
  - intros l ob a Hl Hft. simpl.
    unfold finish, apply_style. cbn [truthy mbind outcome_bind].
    rewrite (wrap_list h l ob Hl), Hft. reflexivity.
  - intros v. induction v as [| | |fields|l'|ret _|ret IH| |]; intros sty a l runs; simpl.
    + intros (_ & [=] & _)%finish_shared.
    + intros (_ & [=] & _)%finish_shared.
    + destruct a; [intros (_ & [=] & _)%finish_shared|discriminate].
    + destruct a; [intros (_ & [=] & _)%finish_shared|].
      destruct fields as [|x [|y fields]]; discriminate.
    + intros (-> & Hr & Hob)%finish_shared.
      destruct (check_first h (VList l')); simplify_eq/=.
      split; [done|]. split; [by apply bool_decide_eq_true_2|done].
    + intros (-> & [= ->] & Hob)%finish_shared.
      split; [done|]. split; [by apply bool_decide_eq_true_2|done].
    + apply IH.
    + discriminate.
    + destruct a; [intros (_ & [=] & _)%finish_shared|discriminate].
Qed.

(** *** Template *)

Lemma split_markers_cons c rest :
  split_markers (String c rest) =
    match rest with
    | String c' rest' =>
        if is_marker c c' then EmptyString :: split_markers rest'
        else
          match split_markers rest with
          | part :: parts => String c part :: parts
          | [] => [String c EmptyString]
          end
    | EmptyString => [String c EmptyString]
    end.
Proof. destruct rest; reflexivity. Qed.

(** Splitting a literal gives one part more than it has markers. *)
Lemma length_split_markers s :
  length (split_markers s) = S (count_markers s).
Proof.
  assert (∀ n s, (String.length s ≤ n)%nat →
            length (split_markers s) = S (count_markers s)) as Hind.
  { clear s. intros n. induction n as [|n IH]; intros s Hlen.
    - destruct s; [reflexivity|simpl in Hlen; lia].
    - destruct s as [|c rest]; [reflexivity|].
      rewrite split_markers_cons. simpl in Hlen.
      destruct rest as [|c' rest']; [reflexivity|].
      cbn [count_markers]. destruct (is_marker c c').
      + simpl in Hlen. simpl. rewrite IH by lia. reflexivity.
      + specialize (IH (String c' rest') ltac:(lia)).
        fold (count_markers (String c' rest')).
        destruct (split_markers (String c' rest')); simpl in *; lia. }
  by apply (Hind (String.length s)).
Qed.

(** C3 (as amended): [format] itself returns the producer, whatever the
    number of arguments; when that number differs from the number of markers
    of the literal, every invocation of the producer raises
    [AssertionError], whatever the arguments are, so before anything is
    normalized or interleaved. *)
Theorem arity_checked_on_invocation (self : Template) (values : list value) h :
  count_markers (text self) ≠ length values →
  format self values = Ok (GetResult self values)
  ∧ invoke (GetResult self values) h = Raise (AssertionError None).
Proof.
  intros Hne. split; [reflexivity|].
  unfold invoke, get_result.
  rewrite bool_decide_eq_false_2; [reflexivity|].
  rewrite length_split_markers. lia.
Qed.

(** C8: the producer of [Template('a{}b{}c').format(x, y)], invoked in a
    store [h], normalizes [x] and then [y] in that store and returns a new
    list: the run of [a], the runs of [x], the run of [b], the runs of [y],
    the run of [c]; it raises what the normalization of [x] or of [y] raises.
    [format] itself only builds the producer. *)
Theorem template_two_markers h x y :
  Template_init "a{}b{}c" = Ok {| text := "a{}b{}c" |}
  ∧ format {| text := "a{}b{}c" |} [x; y]
    = Ok (GetResult {| text := "a{}b{}c" |} [x; y])
  ∧ invoke (GetResult {| text := "a{}b{}c" |} [x; y]) h =
      (fx ← to_formatted_text h x "" false;
       fy ← to_formatted_text h y "" false;
       Ok (Fresh ([run "" "a"] ++ runs_of fx ++ [run "" "b"]
                  ++ runs_of fy ++ [run "" "c"])%list)).
Proof.
  split; [reflexivity|]. split; [reflexivity|].
  unfold invoke, get_result.
  change (split_markers (text {| text := "a{}b{}c" |})) with ["a"; "b"; "c"].
  cbn [length zip zip_with negb bool_decide last interleave].
  rewrite bool_decide_eq_true_2 by reflexivity. cbn [negb].
  destruct (to_formatted_text h x "" false) as [fx|]; [|reflexivity].
  rewrite !bind_Ok.
  destruct (to_formatted_text h y "" false) as [fy|]; [|reflexivity].
  rewrite !bind_Ok. do 2 f_equal.
  rewrite <- !app_assoc. reflexivity.
Qed.

(** *** Merge *)

(** The loop appends the runs of the items to [result], item after item, and
    stops at the first item whose normalization raises. *)
Lemma merge_loop_spec h its result :
  merge_loop object_str h its result =
    (fts ← mapM (λ i, to_formatted_text h i "" false) its;
     Ok (result ++ concat (runs_of <$> fts))%list).
Proof.
  revert result. induction its as [|i its IH]; intros result.
  - simpl. by rewrite app_nil_r.
  - cbn [merge_loop mapM].
    destruct (to_formatted_text h i "" false) as [ft|]; [|reflexivity].
    rewrite !bind_Ok, IH.
    destruct (mapM _ its) as [fts|]; [|reflexivity].
    simpl. by rewrite app_assoc.
Qed.


End Properties.

(** * Concrete instances *)

(** With auto-conversion on, a producer of [42] is refused where [42] itself
    is converted: the flag does not reach the call on what the producer
    returns. *)
Lemma producer_drops_auto_convert :
  to_formatted_text sample_str ∅ (VCallable (VInt 42)) "" true
    = Raise (ValueError (Some (VInt 42)))
  ∧ to_formatted_text sample_str ∅ (VInt 42) "" true
    = Ok (Fresh [run "" "42"])
  ∧ to_formatted_text sample_str ∅ (VCallable (VInt 42)) "" true
    ≠ to_formatted_text sample_str ∅ (VInt 42) "" true.
Proof. repeat split. discriminate. Qed.

Lemma producer_resolution_witness :
  to_formatted_text sample_str ∅ (VCallable (VStr "hi")) "bold" true
  = to_formatted_text sample_str ∅ (VStr "hi") "bold" true.
Proof.
  apply (producer_resolution sample_str ∅ (VStr "hi") "bold" true).
  right. reflexivity.
Defined.

(** [Template('a{}b').format('x', 'y')] returns a producer: it does not
    raise. *)
Lemma format_returns_on_arity_mismatch :
  Template_init "a{}b" = Ok {| text := "a{}b" |}
  ∧ count_markers "a{}b" = 1
  ∧ format {| text := "a{}b" |} [VStr "x"; VStr "y"]
    = Ok (GetResult {| text := "a{}b" |} [VStr "x"; VStr "y"])
  ∧ format {| text := "a{}b" |} [VStr "x"; VStr "y"]
    ≠ Raise (AssertionError None).
Proof. repeat split. discriminate. Qed.

Lemma arity_checked_on_invocation_witness :
  format {| text := "a{}b" |} [VStr "x"; VStr "y"]
    = Ok (GetResult {| text := "a{}b" |} [VStr "x"; VStr "y"])
  ∧ invoke sample_str (GetResult {| text := "a{}b" |} [VStr "x"; VStr "y"]) ∅
    = Raise (AssertionError None).
Proof.
  apply (arity_checked_on_invocation sample_str
           {| text := "a{}b" |} [VStr "x"; VStr "y"] ∅).
  simpl. lia.
Defined.

Lemma style_prefix_runs_witness :
  to_formatted_text sample_str {[ 0 := two_runs ]} (VList 0) "bold" false
  = Ok (Fresh [run "bold a" "x";
               VTuple [VStr "bold b"; VStr "y"; VHandler 7]]).
Proof.
  apply (style_prefix_runs sample_str {[ 0 := two_runs ]} 0 two_runs
           "bold" false).
  - reflexivity.
  - repeat constructor.
  - discriminate.
Defined.

(** The list [[('a', 'x'), 42]] starts with a run and passes the check of
    the first element, yet with the style [bold] it is refused: the
    comprehension that applies the style cannot unpack [42]. *)
Lemma later_element_refused_under_style :
  check_first {[ 0 := bad_second ]} (VList 0) = Ok tt
  ∧ to_formatted_text sample_str {[ 0 := bad_second ]} (VList 0) "bold" false
    = Raise TypeError
  ∧ to_formatted_text sample_str {[ 0 := bad_second ]} (VList 0) "" false
    = Ok (Fresh [run "a" "x"; VInt 42]).
Proof. repeat split. Qed.

Lemma first_element_checked_witness :
  to_formatted_text sample_str {[ 0 := bad_style ]} (VList 0) "" false
  = Raise (AssertionError (Some (VInt 1))).
Proof.
  apply (first_element_checked sample_str {[ 0 := bad_style ]} 0 bad_style
           (VInt 1) (VStr "x") [] [VInt 42] "" false);
    reflexivity.
Defined.

(** A [FormattedText] with a number for style is not returned but refused;
    and the result is an object of the store, not a copy, also when the
    argument is not that object but an object describing itself by it, or a
    producer of it. *)
Lemma canonical_identity_limits :
  to_formatted_text sample_str {[ 0 := canonical_bad ]} (VList 0) "" false
    = Raise (AssertionError (Some (VInt 1)))
  ∧ to_formatted_text sample_str {[ 0 := canonical_x ]}
      (VMagic (VList 0)) "" false
    = Ok (Shared 0 [run "" "x"])
  ∧ to_formatted_text sample_str {[ 0 := canonical_x ]}
      (VCallable (VList 0)) "" false
    = Ok (Shared 0 [run "" "x"])
  ∧ isinstance_list (VMagic (VList 0)) = false
  ∧ isinstance_list (VCallable (VList 0)) = false.
Proof. repeat split. Qed.

Lemma canonical_identity_witness :
  to_formatted_text sample_str {[ 0 := canonical_x ]} (VList 0) "" false
  = Ok (Shared 0 [run "" "x"]).
Proof.
  apply (proj1 (canonical_identity sample_str {[ 0 := canonical_x ]})
           0 canonical_x false);
    reflexivity.
Defined.


(** The list [[(1,)]] is refused by the assertion on the style, with the
    error reporting [1], not by an index out of range. *)
Lemma one_number_fails_assertion :
  to_formatted_text sample_str {[ 0 := one_number ]} (VList 0) "" false
    = Raise (AssertionError (Some (VInt 1)))
  ∧ to_formatted_text sample_str {[ 0 := one_number ]} (VList 0) "" false
    ≠ Raise IndexError.
Proof. split; [reflexivity|discriminate]. Qed.

Lemma short_first_element_witness :
  to_formatted_text sample_str {[ 0 := one_string ]} (VList 0) "" false
  = Raise IndexError.
Proof.
  apply (short_first_element sample_str {[ 0 := one_string ]} 0 one_string
           [VStr "x"] [] "" false).
  - reflexivity.
  - reflexivity.
  - simpl. lia.
Defined.

(** * Further properties *)

Section MoreProperties.

Context (object_str : value → string).

Local Abbreviation to_formatted_text := (to_formatted_text object_str).
Local Abbreviation invoke := (invoke object_str).

Implicit Types (h : store) (v : value) (l : loc) (ob : list_object).

Lemma append_empty_r (s : string) : s +:+ "" = s.
Proof.
  induction s as [|c s IH]; [reflexivity|].
  change (String c (s +:+ "") = String c s). by rewrite IH.
Qed.

(** The end of the function on a new list of one run. *)
Lemma finish_single_run h s k t :
  finish h s (Ok (NewList [run k t])) =
    Ok (Fresh [run (style_prefix s +:+ k) t]).
Proof.
  unfold finish, apply_style, style_prefix.
  destruct (truthy s); reflexivity.
Qed.

(** X1: [None] normalizes to the empty list whatever the style; a string [t]
    normalizes to the single run with text [t] whose style is empty without
    an extra style and is the extra style followed by a space with one. *)
Theorem plain_inputs h t s a :
  to_formatted_text h VNone s a = Ok (Fresh [])
  ∧ to_formatted_text h (VStr t) "" a = Ok (Fresh [run "" t])
  ∧ (s ≠ "" → to_formatted_text h (VStr t) s a = Ok (Fresh [run (s +:+ " ") t])).
Proof.
  split; [|split].
  - simpl. unfold finish, apply_style. by destruct (truthy s).
  - apply (finish_single_run h "" "" t).
  - intros Hs. simpl. fold (run "" t). rewrite finish_single_run.
    unfold style_prefix. rewrite (truthy_nonempty s Hs).
    by rewrite append_empty_r.
Qed.

(** X2: with auto-conversion, a value of no accepted shape becomes exactly
    one run, whose text is the formatted value and whose style is empty, or
    the extra style followed by a space. *)
Theorem auto_convert_single_run h v s :
  accepted_shape v = false →
  to_formatted_text h v s true =
    Ok (Fresh [run (style_prefix s) (py_format object_str v)]).
Proof.
  intros Hv.
  assert (to_formatted_text h v s true =
            finish h s (Ok (NewList [run "" (py_format object_str v)]))) as ->
    by (destruct v; try discriminate; reflexivity).
  by rewrite finish_single_run, append_empty_r.
Qed.

(** X3: whenever [to_formatted_text] returns without auto-conversion, its
    argument is [None] or a value [is_formatted_text] accepts; [None] is
    normalized although [is_formatted_text] rejects it. *)
Theorem is_formatted_text_necessary h v s ft :
  to_formatted_text h v s false = Ok ft →
  v = VNone ∨ is_formatted_text h v = true.
Proof.
  destruct v as [| | |fields| | | | |]; simpl; try discriminate; auto.
  destruct fields as [|x [|y fields]]; discriminate.
Qed.

(** X4: for an object whose [__pt_formatted_text__] returns a list, the
    first element is not checked: without a style the list comes back (the
    same object when it is a [FormattedText], a copy otherwise) whatever it
    holds, and when the list does pass the check, the object normalizes
    under every style as the list itself does. *)
Theorem magic_list_resolution h l ob s a :
  h !! l = Some ob →
  to_formatted_text h (VMagic (VList l)) "" a =
    Ok (if is_FormattedText ob then Shared l (elems ob) else Fresh (elems ob))
  ∧ (check_first h (VList l) = Ok tt →
     to_formatted_text h (VMagic (VList l)) s a
     = to_formatted_text h (VList l) s a).
Proof.
  intros Hl. split.
  - simpl. unfold finish, apply_style. cbn [truthy mbind outcome_bind].
    by apply wrap_list.
  - intros Hc. rewrite to_formatted_text_list, Hc. reflexivity.
Qed.

(** *** Lists of runs *)

Lemma is_run_prefixed s v : is_run v = true → is_run (prefixed s v) = true.
Proof.
  intros (k & t & trailing & -> & Hlen)%is_run_inv.
  destruct trailing as [|x [|y trailing]]; simpl in *; [done|done|lia].
Qed.

(** The extra style on a list of runs of the store. *)
Lemma apply_style_runs h l ob s :
  h !! l = Some ob →
  Forall (λ v, is_run v = true) (elems ob) →
  truthy s = true →
  apply_style h s (Existing (VList l)) = Ok (NewList (prefixed s <$> elems ob)).
Proof.
  intros Hl Hruns Hs. unfold apply_style, iterate.
  rewrite Hs, (py_iter_list h l ob Hl), bind_Ok.
  destruct (prefix_pairs_runs h s (elems ob) Hruns) as [-> | ->];
    [reflexivity|].
  by rewrite (prefix_items_runs h s (elems ob) Hruns).
Qed.

(** X5: a list of runs of two or three fields is normalized without error
    under every style and flag, and the result holds as many elements as the
    list, each of them again a run of two or three fields. *)
Theorem runs_stay_runs h l ob s a :
  h !! l = Some ob →
  Forall (λ v, is_run v = true) (elems ob) →
  ∃ ft, to_formatted_text h (VList l) s a = Ok ft
        ∧ Forall (λ v, is_run v = true) (runs_of ft)
        ∧ length (runs_of ft) = length (elems ob).
Proof.
  intros Hl Hruns.
  pose proof (check_first_well_formed h l ob Hl
                (is_run_well_formed_head _ Hruns)) as Hc.
  destruct (truthy s) eqn:Hs.
  - exists (Fresh (prefixed s <$> elems ob)). split; [|split].
    + rewrite to_formatted_text_list, Hc, bind_Ok.
      by rewrite (apply_style_runs h l ob s Hl Hruns Hs).
    + simpl. apply Forall_fmap. eapply Forall_impl; [exact Hruns|].
      intros v Hv. by apply is_run_prefixed.
    + simpl. by rewrite length_fmap.
  - apply truthy_false in Hs as ->.
    rewrite (to_formatted_text_list_no_style object_str h l ob a Hl Hc).
    eexists. split; [reflexivity|].
    by destruct (is_FormattedText ob).
Qed.

(** The fast comprehension stops at an element that cannot be unpacked, or
    before it at a run of three fields. *)
Lemma prefix_pairs_stuck h s pre x rest :
  Forall (λ v, is_run v = true) pre →
  subscriptable x = false →
  prefix_pairs h s (pre ++ x :: rest) = Raise TypeError
  ∨ prefix_pairs h s (pre ++ x :: rest) = Raise (ValueError None).
Proof.
  intros Hpre Hx. induction Hpre as [|v pre Hv _ IH].
  - left. by destruct x.
  - apply is_run_inv in Hv as (k & t & trailing & -> & Hlen).
    destruct trailing as [|y trailing].
    + simpl. destruct IH as [-> | ->]; [left|right]; reflexivity.
    + right. destruct trailing; [reflexivity|]. simpl in Hlen. lia.
Qed.

(** The slow comprehension stops at an element that cannot be subscripted. *)
Lemma prefix_items_stuck h s pre x rest :
  Forall (λ v, is_run v = true) pre →
  subscriptable x = false →
  prefix_items h s (pre ++ x :: rest) = Raise TypeError.
Proof.
  intros Hpre Hx. induction Hpre as [|v pre Hv _ IH].
  - by destruct x.
  - simpl. rewrite (prefix_item_run h s v Hv), bind_Ok, IH. reflexivity.
Qed.

(** X6: an element that is no sequence (a number, [None], an object) after
    any number of runs makes [to_formatted_text] raise [TypeError] as soon as
    an extra style is given, although without a style the same list, when it
    starts with a run, is accepted with all its elements. *)
Theorem style_exposes_later_element h l ob pre x rest s a :
  h !! l = Some ob →
  elems ob = (pre ++ x :: rest)%list →
  Forall (λ v, is_run v = true) pre →
  subscriptable x = false →
  (s ≠ "" → to_formatted_text h (VList l) s a = Raise TypeError)
  ∧ (pre ≠ [] →
     ∃ ft, to_formatted_text h (VList l) "" a = Ok ft
           ∧ runs_of ft = elems ob).
Proof.
  intros Hl Hitems Hpre Hx. split.
  - intros Hs. rewrite to_formatted_text_list.
    destruct pre as [|v pre].
    + assert (check_first h (VList l) = Raise TypeError) as ->; [|done].
      unfold check_first.
      rewrite (py_iter_list h l ob Hl), bind_Ok, Hitems.
      rewrite bool_decide_eq_false_2 by (simpl; lia).
      rewrite (subscript_list h l ob 0 Hl), Hitems. simpl.
      by destruct x.
    + rewrite (check_first_well_formed h l ob Hl), bind_Ok.
      2:{ rewrite Hitems. apply (is_run_well_formed_head (v :: pre)) in Hpre.
          simpl in *. by destruct v as [| | |[|[] [|[] ?]]| | | | |]. }
      unfold apply_style, iterate.
      rewrite (truthy_nonempty s Hs), (py_iter_list h l ob Hl), bind_Ok, Hitems.
      destruct (prefix_pairs_stuck h s (v :: pre) x rest Hpre Hx) as [-> | ->];
        [reflexivity|].
      by rewrite (prefix_items_stuck h s (v :: pre) x rest Hpre Hx).
  - intros Hne.
    rewrite (to_formatted_text_list_no_style object_str h l ob a Hl).
    + eexists. split; [reflexivity|]. by destruct (is_FormattedText ob).
    + apply (check_first_well_formed h l ob Hl). rewrite Hitems.
      destruct pre as [|v pre]; [done|].
      apply (is_run_well_formed_head (v :: pre)) in Hpre.
      simpl in *. by destruct v as [| | |[|[] [|[] ?]]| | | | |].
Qed.

(** *** Splitting a literal *)

Lemma is_marker_true c c' : is_marker c c' = true → c = "{"%char ∧ c' = "}"%char.
Proof.
  unfold is_marker. intros [H1 H2]%andb_prop.
  by apply Ascii.eqb_eq in H1, H2.
Qed.

Lemma split_markers_nonempty s : split_markers s ≠ [].
Proof.
  intros Hs. pose proof (length_split_markers s) as Hlen.
  by rewrite Hs in Hlen.
Qed.

Lemma join_markers_cons c part parts :
  join_markers (String c part :: parts) = String c (join_markers (part :: parts)).
Proof. by destruct parts. Qed.

(** X7: putting the marker back between the parts of a split literal gives
    the literal back: splitting loses no character. *)
Theorem join_split_markers s : join_markers (split_markers s) = s.
Proof.
  assert (∀ n s, (String.length s ≤ n)%nat →
            join_markers (split_markers s) = s) as Hind.
  { clear s. intros n. induction n as [|n IH]; intros s Hlen.
    - destruct s; [reflexivity|simpl in Hlen; lia].
    - destruct s as [|c rest]; [reflexivity|].
      rewrite split_markers_cons. simpl in Hlen.
      destruct rest as [|c' rest']; [reflexivity|].
      destruct (is_marker c c') eqn:Hm.
      + apply is_marker_true in Hm as [-> ->]. simpl in Hlen.
        pose proof (IH rest' ltac:(lia)) as Hrest.
        pose proof (split_markers_nonempty rest') as Hne.
        destruct (split_markers rest') as [|part parts]; [done|].
        change (join_markers ("" :: part :: parts))
          with ("" +:+ "{}" +:+ join_markers (part :: parts)).
        by rewrite Hrest.
      + pose proof (IH (String c' rest') ltac:(lia)) as Hrest.
        pose proof (split_markers_nonempty (String c' rest')) as Hne.
        destruct (split_markers (String c' rest')) as [|part parts]; [done|].
        by rewrite join_markers_cons, Hrest. }
  by apply (Hind (String.length s)).
Qed.

(** The first part of a split literal is empty or starts as the literal. *)
Lemma split_markers_head s part parts :
  split_markers s = part :: parts →
  part = "" ∨ ∃ c part' s', part = String c part' ∧ s = String c s'.
Proof.
  destruct s as [|c rest]; [intros [= <- _]; by left|].
  rewrite split_markers_cons.
  destruct rest as [|c' rest']; [intros [= <- _]; right; eauto|].
  destruct (is_marker c c'); [intros [= <- _]; by left|].
  destruct (split_markers (String c' rest')); intros [= <- _]; right; eauto.
Qed.

(** X8: no part of a split literal holds a marker. *)
Theorem split_markers_parts_clean s :
  Forall (λ part, count_markers part = 0) (split_markers s).
Proof.
  assert (∀ n s, (String.length s ≤ n)%nat →
            Forall (λ part, count_markers part = 0) (split_markers s)) as Hind.
  { clear s. intros n. induction n as [|n IH]; intros s Hlen.
    - destruct s; [by repeat constructor|simpl in Hlen; lia].
    - destruct s as [|c rest]; [by repeat constructor|].
      rewrite split_markers_cons. simpl in Hlen.
      destruct rest as [|c' rest']; [by repeat constructor|].
      destruct (is_marker c c') eqn:Hm.
      + simpl in Hlen. constructor; [done|]. apply IH. lia.
      + pose proof (IH (String c' rest') ltac:(lia)) as Hrest.
        destruct (split_markers (String c' rest')) as [|part parts] eqn:Hsplit;
          [by repeat constructor|].
        apply Forall_cons in Hrest as [Hpart Hparts].
        constructor; [|done].
        apply split_markers_head in Hsplit
          as [-> | (c2 & part' & s' & -> & [= <- <-])]; [done|].
        cbn [count_markers]. rewrite Hm. exact Hpart. }
  by apply (Hind (String.length s)).
Qed.

(** A literal without marker is its only part. *)
Lemma split_markers_no_marker s :
  count_markers s = 0 → split_markers s = [s].
Proof.
  induction s as [|c rest IH]; [done|].
  rewrite split_markers_cons. destruct rest as [|c' rest']; [done|].
  cbn [count_markers]. destruct (is_marker c c'); [done|].
  intros Hrest. by rewrite (IH Hrest).
Qed.

(** *** Templates *)

Lemma prefix_app needle post : String.prefix needle (needle +:+ post) = true.
Proof.
  induction needle as [|c needle IH]; [by destruct post|].
  simpl. by destruct (ascii_dec c c).
Qed.

Lemma prefix_inv needle hay :
  String.prefix needle hay = true → ∃ post, hay = needle +:+ post.
Proof.
  revert hay. induction needle as [|c needle IH]; intros hay.
  - intros _. by exists hay.
  - destruct hay as [|c' hay]; [done|]. simpl.
    destruct (ascii_dec c c') as [->|]; [|done].
    intros [post ->]%IH. by exists post.
Qed.

Lemma contains_unfold needle hay :
  contains needle hay =
    (String.prefix needle hay ||
     match hay with
     | EmptyString => false
     | String _ hay' => contains needle hay'
     end).
Proof. by destruct hay. Qed.

(** [needle in hay] holds exactly when [hay] is some text, [needle], some
    text. *)
Lemma contains_spec needle hay :
  contains needle hay = true ↔ ∃ pre post, hay = pre +:+ needle +:+ post.
Proof.
  split.
  - induction hay as [|c hay IH]; rewrite contains_unfold;
      intros [Hp|Hc]%orb_prop.
    + apply prefix_inv in Hp as [post ->]. by exists "", post.
    + done.
    + apply prefix_inv in Hp as [post ->]. by exists "", post.
    + destruct (IH Hc) as (pre & post & ->). by exists (String c pre), post.
  - intros (pre & post & ->). induction pre as [|c pre IH].
    + change ("" +:+ needle +:+ post) with (needle +:+ post).
      by rewrite contains_unfold, prefix_app.
    + rewrite contains_unfold. apply orb_true_intro. right. exact IH.
Qed.

(** X9: building a template fails the assertion exactly when the literal
    holds the old marker [{0}] somewhere; any other literal is kept as it
    is. *)
Theorem Template_init_guard (literal : string) :
  ((∃ pre post, literal = pre +:+ "{0}" +:+ post) →
   Template_init literal = Raise (AssertionError None))
  ∧ ((¬ ∃ pre post, literal = pre +:+ "{0}" +:+ post) →
     Template_init literal = Ok {| text := literal |}).
Proof.
  unfold Template_init. split.
  - intros H. apply contains_spec in H. by rewrite H.
  - intros H. destruct (contains "{0}" literal) eqn:Hc; [|done].
    destruct H. by apply contains_spec.
Qed.

Lemma zip_nil_r {A B} (xs : list A) : zip xs (@nil B) = [].
Proof. by destruct xs. Qed.

(** The loop of [get_result] normalizes the values from the left and puts
    each part before the runs of its value. *)
Lemma interleave_spec h values :
  ∀ parts result,
    (length values ≤ length parts)%nat →
    interleave object_str h (zip parts values) result =
      (fts ← mapM (λ v, to_formatted_text h v "" false) values;
       Ok (result ++
           concat (zip_with (λ part ft, run "" part :: runs_of ft) parts fts))%list).
Proof.
  induction values as [|v values IH]; intros parts result Hlen.
  - rewrite zip_nil_r. simpl. destruct parts; simpl; by rewrite app_nil_r.
  - destruct parts as [|part parts]; [simpl in Hlen; lia|].
    cbn [zip zip_with interleave mapM].
    destruct (to_formatted_text h v "" false) as [ft|]; [|reflexivity].
    rewrite !bind_Ok. fold (zip parts values).
    rewrite IH by (simpl in Hlen; lia).
    destruct (mapM _ values) as [fts|]; [|reflexivity].
    simpl. by rewrite <- !app_assoc.
Qed.

(** X10: when a template is formatted with as many arguments as its literal
    has markers, the producer normalizes the arguments from the left and
    returns a new list: each part of the literal as a run of empty style,
    followed by the runs of the argument that fills the marker after it,
    and the last part at the end; it raises what the first failing
    normalization raises, and never the error of the arity. *)
Theorem format_interleaves (self : Template) (values : list value) h :
  count_markers (text self) = length values →
  invoke (GetResult self values) h =
    (fts ← mapM (λ v, to_formatted_text h v "" false) values;
     Ok (Fresh (interleaved (split_markers (text self)) fts))).
Proof.
  intros Harity. unfold invoke, get_result.
  pose proof (length_split_markers (text self)) as Hlen.
  rewrite bool_decide_eq_true_2 by lia. cbn [negb].
  rewrite interleave_spec by lia.
  destruct (mapM _ values) as [fts|]; [|reflexivity].
  rewrite !bind_Ok. unfold interleaved.
  destruct (last (split_markers (text self))) as [part|] eqn:Hlast;
    [reflexivity|].
  apply last_None in Hlast. by apply split_markers_nonempty in Hlast.
Qed.

(** X11: a template whose literal has no marker, formatted with no argument,
    produces the one run holding the whole literal with the empty style. *)
Theorem template_without_markers (self : Template) h :
  count_markers (text self) = 0 →
  invoke (GetResult self []) h = Ok (Fresh [run "" (text self)]).
Proof.
  intros Hcount. unfold invoke, get_result.
  by rewrite (split_markers_no_marker _ Hcount).
Qed.

(** *** Merging *)

Lemma mapM_outcome_app {A B} (f : A → outcome B) (xs ys : list A) :
  mapM f (xs ++ ys) =
    (bs ← mapM f xs; cs ← mapM f ys; Ok (bs ++ cs)%list).
Proof.
  induction xs as [|x xs IH].
  - simpl. by destruct (mapM f ys).
  - cbn [app mapM]. destruct (f x) as [b|]; [|reflexivity].
    rewrite !bind_Ok, IH.
    destruct (mapM f xs) as [bs|]; [|reflexivity].
    rewrite !bind_Ok. by destruct (mapM f ys).
Qed.

(** The producer of a merge over a tuple. *)
Lemma merge_tuple_spec h (items : list value) :
  invoke (MergeFormattedText (VTuple items)) h =
    (fts ← mapM (λ i, to_formatted_text h i "" false) items;
     Ok (Fresh (concat (runs_of <$> fts)))).
Proof.
  unfold invoke, _merge_formatted_text. simpl py_iter.
  rewrite bind_Ok, merge_loop_spec. by destruct (mapM _ items).
Qed.

(** X12: merging the items [xs] followed by the items [ys] gives the runs of
    the merge of [xs] followed by those of the merge of [ys], and raises what
    the merge of [xs] raises or else what the merge of [ys] raises. *)
Theorem merge_app h (xs ys : list value) :
  invoke (MergeFormattedText (VTuple (xs ++ ys))) h =
    (fx ← invoke (MergeFormattedText (VTuple xs)) h;
     fy ← invoke (MergeFormattedText (VTuple ys)) h;
     Ok (Fresh (runs_of fx ++ runs_of fy)%list)).
Proof.
  rewrite !merge_tuple_spec, mapM_outcome_app.
  destruct (mapM _ xs) as [bs|]; [|reflexivity].
  destruct (mapM _ ys) as [cs|]; [|reflexivity].
  simpl. by rewrite fmap_app, concat_app.
Qed.

End MoreProperties.

(** * Instances of the further properties *)

Lemma plain_inputs_witness :
  to_formatted_text sample_str ∅ (VStr "hi") "bold" false
  = Ok (Fresh [run "bold " "hi"]).
Proof.
  apply (plain_inputs sample_str ∅ "hi" "bold" false). discriminate.
Defined.

Lemma auto_convert_single_run_witness :
  to_formatted_text sample_str ∅ (VInt (-7)) "bold" true
  = Ok (Fresh [run "bold " "-7"]).
Proof.
  apply (auto_convert_single_run sample_str ∅ (VInt (-7)) "bold").
  reflexivity.
Defined.

Lemma is_formatted_text_necessary_witness :
  VStr "x" = VNone ∨ is_formatted_text ∅ (VStr "x") = true.
Proof.
  apply (is_formatted_text_necessary sample_str ∅ (VStr "x") ""
           (Fresh [run "" "x"])).
  reflexivity.
Defined.

Lemma magic_list_resolution_witness :
  to_formatted_text sample_str {[ 0 := canonical_bad ]} (VMagic (VList 0)) ""
    false
  = Ok (Shared 0 [VTuple [VInt 1; VStr "x"]]).
Proof.
  apply (magic_list_resolution sample_str {[ 0 := canonical_bad ]} 0
           canonical_bad "" false).
  reflexivity.
Defined.

Lemma runs_stay_runs_witness :
  ∃ ft,
    to_formatted_text sample_str {[ 0 := two_runs ]} (VList 0) "bold" false
    = Ok ft
    ∧ Forall (λ v, is_run v = true) (runs_of ft)
    ∧ length (runs_of ft) = length (elems two_runs).
Proof.
  apply (runs_stay_runs sample_str {[ 0 := two_runs ]} 0 two_runs "bold" false).
  - reflexivity.
  - repeat constructor.
Defined.

Lemma style_exposes_later_element_witness :
  to_formatted_text sample_str {[ 0 := bad_second ]} (VList 0) "bold" false
  = Raise TypeError.
Proof.
  apply (style_exposes_later_element sample_str {[ 0 := bad_second ]} 0
           bad_second [run "a" "x"] (VInt 42) [] "bold" false).
  - reflexivity.
  - reflexivity.
  - repeat constructor.
  - reflexivity.
  - discriminate.
Defined.

Lemma Template_init_guard_witness :
  Template_init "a{0}b" = Raise (AssertionError None).
Proof.
  apply (Template_init_guard "a{0}b"). by exists "a", "b".
Defined.

Lemma format_interleaves_witness :
  invoke sample_str (GetResult {| text := "a{}b" |} [VStr "x"]) ∅
  = Ok (Fresh [run "" "a"; run "" "x"; run "" "b"]).
Proof.
  etrans.
  - exact (format_interleaves sample_str {| text := "a{}b" |} [VStr "x"] ∅
             eq_refl).
  - reflexivity.
Defined.

Lemma template_without_markers_witness :
  invoke sample_str (GetResult {| text := "a{b}c" |} []) ∅
  = Ok (Fresh [run "" "a{b}c"]).
Proof.
  apply (template_without_markers sample_str {| text := "a{b}c" |} ∅).
  reflexivity.
Defined.
